(** * Review endpoints of the AirBnB clone REST API

    A shallow embedding of [api/v1/views/places_reviews.py]: the five
    Flask view functions [reviews_by_place], [review_create],
    [review_by_id], [review_put] and [review_delete_by_id], together with
    the collaborators they call (the storage engine, the [Review] model,
    Flask's [request.get_json], [jsonify] and [abort]).

    The view functions are translated statement by statement.  The
    collaborators live outside the translated file; each of them is
    modelled from the written specification and is marked as such.
    The builtin [setattr] is Python's, on an instance of an ordinary
    class. *)

From Stdlib Require Import ZArith String List.
From stdpp Require Import gmap strings list fin_maps.

Set Warnings "-register-all".

Local Open Scope string_scope.
Local Open Scope Z_scope.

(** ** Python values that a JSON body can decode to

    [json.loads] yields [None], booleans, integers, strings, lists and
    dictionaries with string keys (a later duplicate key replaces an
    earlier one, hence a finite map).  Fractional numbers are left out:
    no view function looks inside a number. *)

Inductive json : Type :=
  | JNull
  | JBool (b : bool)
  | JNum (n : Z)
  | JStr (s : string)
  | JArr (l : list json)
  | JObj (o : gmap string json).

Module Py.

(** Exceptions that the view functions can let escape. *)
Inductive exn : Type :=
  | KeyError (k : string)
  | TypeError
  | AttributeError.

(** Result of evaluating a Python expression or statement. *)
Inductive result (A : Type) : Type :=
  | Ok (a : A)
  | Aborted (status : Z) (description : option string)
  | Raised (e : exn).
Arguments Ok {A} a.
Arguments Aborted {A} status description.
Arguments Raised {A} e.

(** [v is None] *)
Definition is_None (v : json) : bool :=
  match v with JNull => true | _ => false end.

(** [v[k]] for a string [k]: a dictionary is looked up, everything
    else refuses a string subscript. *)
Definition getitem (v : json) (k : string) : result json :=
  match v with
  | JObj o => match o !! k with
              | Some x => Ok x
              | None => Raised (KeyError k)
              end
  | _ => Raised TypeError
  end.

(** [v[k] = x] for a string [k]. *)
Definition setitem (v : json) (k : string) (x : json) : result json :=
  match v with
  | JObj o => Ok (JObj (<[k := x]> o))
  | _ => Raised TypeError
  end.

Definition is_str (k : string) (x : json) : bool :=
  match x with JStr s => String.eqb s k | _ => false end.

(** [k in s] on strings: [k] occurs in [s] as a substring. *)
Fixpoint occurs (k s : string) : bool :=
  String.prefix k s
  || match s with
     | EmptyString => false
     | String _ s' => occurs k s'
     end.

(** [k in v] for a string [k]. *)
Definition contains (k : string) (v : json) : result bool :=
  match v with
  | JObj o => Ok (bool_decide (is_Some (o !! k)))
  | JArr l => Ok (existsb (is_str k) l)
  | JStr s => Ok (occurs k s)
  | _ => Raised TypeError
  end.

(** The names that [setattr] does not bind as a plain attribute of an
    instance: the instance dictionary itself, the class, and the slot of
    the weak references. *)
Definition special_names : list string :=
  ["__dict__"; "__class__"; "__weakref__"].

(** The pairs of a dictionary, each key once, that name a plain
    attribute, and those that do not. *)
Definition plain (o : gmap string json) : gmap string json :=
  filter (λ kv : string * json, kv.1 ∉ special_names) o.

Definition specials (o : gmap string json) : list (string * json) :=
  omap (λ k, pair k <$> o !! k) special_names.

(** [v.items()]: the pairs of a dictionary, each key once.  A finite map
    does not keep the order in which the body listed its keys, and
    Python goes through them in that order; the model lists the plain
    attributes first (writes of distinct plain attributes commute) and
    the special names after them, so that a call of [setattr] that
    fails comes after the writes.  For a body with one key there is no
    order to choose. *)
Definition items (v : json) : result (list (string * json)) :=
  match v with
  | JObj o => Ok (map_to_list (plain o) ++ specials o)%list
  | _ => Raised AttributeError
  end.

(** The mapping behind [**v] in a call. *)
Definition kwargs (v : json) : result (gmap string json) :=
  match v with
  | JObj o => Ok o
  | _ => Raised TypeError
  end.

End Py.
Export Py.

(** ** Flask *)

(** The body of a request as [request.get_json] sees it: either it does
    not decode as JSON, or it decodes to a value. *)
Inductive request_body : Type :=
  | Unparsable
  | Parsed (v : json).

(** [request.get_json(silent=True)]: the decoded value, and [None] in
    place of a decoding error. *)
Definition get_json_silent (b : request_body) : json :=
  match b with
  | Unparsable => JNull
  | Parsed v => v
  end.

Record response : Type := Response { status_code : Z; data : json }.

(** [jsonify(v)] *)
Definition jsonify (v : json) : response :=
  {| status_code := 200; data := v |}.

(** ** Storage *)

(** Calls that change what the storage layer holds. *)
Inductive storage_call : Type :=
  | CallSave
  | CallDelete (cls id : string).

(** Modelled from the spec: the storage engine ([models.storage], absent
    from the translated file) is a key-value-like object store addressed
    by (type-name, id).  [objects] are the live entities, each an
    attribute bag; [persisted] is what the last save wrote; [issued]
    lists the saves and deletes received so far. *)
Record storage : Type := Storage {
  objects : gmap (string * string) (gmap string json);
  persisted : gmap (string * string) (gmap string json);
  issued : list storage_call
}.

(** Modelled from the spec: [storage.get(type_name, id) -> object|None].
    Identifiers are strings, so no entity answers to another value. *)
Definition storage_get (cls : string) (id : json) (st : storage)
  : option (gmap string json) :=
  match id with
  | JStr s => objects st !! (cls, s)
  | _ => None
  end.

(** Modelled from the spec: [storage.save() -> void] persists the live
    entities. *)
Definition storage_save (st : storage) : storage :=
  {| objects := objects st;
     persisted := objects st;
     issued := issued st ++ [CallSave] |}.

(** Modelled from the spec: [storage.delete(object) -> void] removes the
    entity from the store. *)
Definition storage_delete (cls id : string) (st : storage) : storage :=
  {| objects := delete (cls, id) (objects st);
     persisted := persisted st;
     issued := issued st ++ [CallDelete cls id] |}.

(** Modelled from the spec: [entity.save()] of [models.base_model]
    persists the entity: it is entered in the store under its type name
    and id, and the store is saved. *)
Definition model_save (cls id : string) (a : gmap string json)
    (st : storage) : storage :=
  storage_save
    {| objects := <[(cls, id) := a]> (objects st);
       persisted := persisted st;
       issued := issued st |}.

(** Writes to the live entity stored under [(cls, id)]: the entity
    handed out by [storage.get] is the stored one, so a write through
    the reference is seen by the store.  [mutate] changes the instance
    dictionary in place. *)
Definition mutate (cls id : string)
    (f : gmap string json → gmap string json) (st : storage) : storage :=
  {| objects := alter f (cls, id) (objects st);
     persisted := persisted st;
     issued := issued st |}.

(** The attributes of the live entity that a reference handed out by
    [storage.get cls id] points to. *)
Definition entity (cls id : string) (st : storage) : gmap string json :=
  default ∅ (objects st !! (cls, id)).

(** Modelled from the spec: [entity.to_json() -> mapping], the entity's
    attributes [{id, place_id, user_id, text, created_at, updated_at,
    ...}]. *)
Definition to_json (a : gmap string json) : json := JObj a.

(** Modelled from the spec: the constructor [Review] of [models.review],
    called with keyword arguments [kw], builds the entity from them; the
    server assigns its [id] and both timestamps.  [uuid] is the
    identifier drawn for the new entity and [now] the time of the
    call. *)
Definition Review_init (kw : gmap string json) (uuid now : string)
  : gmap string json :=
  <["updated_at" := JStr now]>
    (<["created_at" := JStr now]> (<["id" := JStr uuid]> kw)).

(** Modelled from the spec: [place.reviews -> ordered sequence of
    Review]: the reviews that belong to the place via [place_id], in the
    order in which the store enumerates them. *)
Definition belongs_to (place_id : string) (a : gmap string json) : bool :=
  match a !! "place_id" with
  | Some (JStr p) => String.eqb p place_id
  | _ => false
  end.

Definition place_reviews (place_id : string) (st : storage)
  : list (gmap string json) :=
  omap (λ kv : (string * string) * gmap string json,
          if String.eqb kv.1.1 "Review" && belongs_to place_id kv.2
          then Some kv.2 else None)
       (map_to_list (objects st)).

(** ** View functions

    A view function runs against the store and ends in a response, in
    an [abort] or in an escaping exception. *)

Definition view (A : Type) : Type := storage → result A * storage.

#[global] Instance view_ret : MRet view :=
  λ A (a : A) st, (Ok a, st).

#[global] Instance view_bind : MBind view :=
  λ A B (f : A → view B) (m : view A) st,
    match m st with
    | (Ok a, st') => f a st'
    | (Aborted s d, st') => (Aborted s d, st')
    | (Raised e, st') => (Raised e, st')
    end.

(** [abort(status)] and [abort(status, description)] *)
Definition abort {A : Type} (status : Z) (description : option string)
  : view A :=
  λ st, (Aborted status description, st).

(** A Python expression that does not touch the store. *)
Definition eval {A : Type} (r : result A) : view A := λ st, (r, st).

(** Reading from and acting on the store. *)
Definition reads {A : Type} (f : storage → A) : view A :=
  λ st, (Ok (f st), st).

Definition acts (f : storage → storage) : view unit :=
  λ st, (Ok (), f st).

(** [for x in l: body x], where the body updates a local variable. *)
Fixpoint for_each {A S : Type} (l : list A) (body : A → S → view S) (s : S)
  : view S :=
  match l with
  | [] => mret s
  | x :: l' => s' ← body x s; for_each l' body s'
  end.

(** ** Instances *)

(** Modelled from the spec: an entity ([models.base_model], absent from
    the translated file) is an instance of an ordinary class; its
    instance dictionary is its attribute bag, and the methods that the
    view functions call on it are [save] and [to_json].  An entity that
    [storage.get(cls, id)] hands out has the id [id] and answers both
    methods.  What a view function does to the instance through its
    reference is kept with the reference: [rebuilt] says that it has
    assigned [__dict__], and [bound] lists the names that it has bound
    with [setattr]. *)
Record instance : Type := Instance {
  rebuilt : bool;
  bound : list string
}.

(** The reference as [storage.get] returns it. *)
Definition fetched : instance := {| rebuilt := false; bound := [] |}.

(** The builtin [setattr(obj, k, v)] for a string [k] and a decoded
    JSON value [v].  Assigning [__dict__] replaces the instance
    dictionary and wants a dictionary; [__class__] wants a class, which
    no decoded value is; [__weakref__] is not writable; every other
    name is bound in the instance dictionary. *)
Definition setattr (cls id : string) (k : string) (v : json)
    (obj : instance) : view instance :=
  if String.eqb k "__class__" then eval (Raised TypeError)
  else if String.eqb k "__weakref__" then eval (Raised AttributeError)
  else if String.eqb k "__dict__" then
    match v with
    | JObj d =>
        _ ← acts (mutate cls id (λ _, d));
        mret {| rebuilt := true; bound := [] |}
    | _ => eval (Raised TypeError)
    end
  else
    _ ← acts (mutate cls id (insert k v));
    mret {| rebuilt := rebuilt obj; bound := k :: bound obj |}.

(** Whether the instance dictionary has an entry of its own making
    under [name], which is then found before the method of the class. *)
Definition has_own (cls id name : string) (obj : instance) (st : storage)
  : bool :=
  if rebuilt obj
  then bool_decide (is_Some (entity cls id st !! name))
  else bool_decide (name ∈ bound obj).

(** [obj.name(...)] for a method [name] with body [m]: a decoded JSON
    value found in its place cannot be called. *)
Definition call {A : Type} (cls id name : string) (obj : instance)
    (m : view A) : view A :=
  λ st, if has_own cls id name obj st then (Raised TypeError, st) else m st.

(** [self.id] read from an instance dictionary [a]; the store is
    addressed by string ids. *)
Definition id_of (a : gmap string json) : result string :=
  match a !! "id" with
  | Some (JStr i) => Ok i
  | Some _ => Raised TypeError
  | None => Raised AttributeError
  end.

(** The id of the instance: the one under which it was fetched, unless
    the view function has given it another instance dictionary. *)
Definition own_id (cls id : string) (obj : instance) : view string :=
  λ st, if rebuilt obj then (id_of (entity cls id st), st) else (Ok id, st).

(** Modelled from the spec: [obj.save()] on a fetched instance enters
    it in the store under its type name and its id, and saves the
    store. *)
Definition save (cls id : string) (obj : instance) : view unit :=
  i ← own_id cls id obj;
  acts (λ st, model_save cls i (entity cls id st) st).

(** [GET /places/<place_id>/reviews] *)
Definition reviews_by_place (place_id : string) : view response :=
  place_obj ← reads (storage_get "Place" (JStr place_id));
  match place_obj with
  | None => abort 404 None
  | Some _ =>
      reviews ← reads (place_reviews place_id);
      let review_list :=
        foldl (λ acc obj, (acc ++ [to_json obj])%list) [] reviews in
      mret (jsonify (JArr review_list))
  end.

(** [POST /places/<place_id>/reviews]; [uuid] and [now] are the
    identifier and the time that the server draws for a new entity. *)
Definition review_create (place_id : string) (body : request_body)
    (uuid now : string) : view response :=
  let review_json := get_json_silent body in
  if is_None review_json then abort 400 (Some "Not a JSON") else
  place ← reads (storage_get "Place" (JStr place_id));
  if negb (bool_decide (is_Some place)) then abort 404 None else
  user_id ← eval (getitem review_json "user_id");
  user ← reads (storage_get "User" user_id);
  if negb (bool_decide (is_Some user)) then abort 404 None else
  has_user_id ← eval (contains "user_id" review_json);
  if negb has_user_id then abort 400 (Some "Missing user_id") else
  has_text ← eval (contains "text" review_json);
  if negb has_text then abort 400 (Some "Missing text") else
  review_json ← eval (setitem review_json "place_id" (JStr place_id));
  kw ← eval (kwargs review_json);
  let new_review := Review_init kw uuid now in
  _ ← acts (model_save "Review" uuid new_review);
  let resp := jsonify (to_json new_review) in
  mret {| status_code := 201; data := data resp |}.

(** [GET /reviews/<review_id>] *)
Definition review_by_id (review_id : string) : view response :=
  fetched_obj ← reads (storage_get "Review" (JStr review_id));
  match fetched_obj with
  | None => abort 404 None
  | Some obj => mret (jsonify (to_json obj))
  end.

Definition protected_keys : list string :=
  ["id"; "created_at"; "updated_at"; "user_id"; "place_id"].

(** Body of the loop of [review_put], for one [(key, val)] of the
    request's dictionary. *)
Definition put_item (review_id : string) (kv : string * json)
    (fetched_obj : instance) : view instance :=
  if negb (bool_decide (kv.1 ∈ protected_keys))
  then setattr "Review" review_id kv.1 kv.2 fetched_obj
  else mret fetched_obj.

(** [PUT /reviews/<review_id>] *)
Definition review_put (review_id : string) (body : request_body)
  : view response :=
  let place_json := get_json_silent body in
  if is_None place_json then abort 400 (Some "Not a JSON") else
  fetched_obj ← reads (storage_get "Review" (JStr review_id));
  match fetched_obj with
  | None => abort 404 None
  | Some _ =>
      kvs ← eval (items place_json);
      fetched_obj ← for_each kvs (put_item review_id) fetched;
      _ ← call "Review" review_id "save" fetched_obj
            (save "Review" review_id fetched_obj);
      call "Review" review_id "to_json" fetched_obj
        (a ← reads (entity "Review" review_id);
         mret (jsonify (to_json a)))
  end.

(** [DELETE /reviews/<review_id>] *)
Definition review_delete_by_id (review_id : string) : view response :=
  fetched_obj ← reads (storage_get "Review" (JStr review_id));
  match fetched_obj with
  | None => abort 404 None
  | Some _ =>
      _ ← acts (storage_delete "Review" review_id);
      _ ← acts storage_save;
      mret (jsonify (JObj ∅))
  end.

(** The routes registered on [app_views]. *)
Inductive route : Type :=
  | GET_places_reviews (place_id : string)
  | POST_places_reviews (place_id : string) (body : request_body)
      (uuid now : string)
  | GET_reviews (review_id : string)
  | PUT_reviews (review_id : string) (body : request_body)
  | DELETE_reviews (review_id : string).

Definition dispatch (r : route) : view response :=
  match r with
  | GET_places_reviews p => reviews_by_place p
  | POST_places_reviews p b uuid now => review_create p b uuid now
  | GET_reviews r => review_by_id r
  | PUT_reviews r b => review_put r b
  | DELETE_reviews r => review_delete_by_id r
  end.

(** ** Auxiliary definitions for the statements *)

(** What the loop of [review_put] makes of an attribute bag. *)
Definition merge_items (l : list (string * json)) (a : gmap string json)
  : gmap string json :=
  foldl (λ acc kv,
           if bool_decide (kv.1 ∈ protected_keys) then acc
           else <[kv.1 := kv.2]> acc)
        a l.

(** The names that the loop of [review_put] binds, in front of [bs]. *)
Definition bind_items (l : list (string * json)) (bs : list string)
  : list string :=
  foldl (λ acc kv,
           if bool_decide (kv.1 ∈ protected_keys) then acc
           else kv.1 :: acc)
        bs l.

(** The store once the live review [rid] has the attributes [b]. *)
Definition written (rid : string) (b : gmap string json) (st : storage)
  : storage :=
  {| objects := <[("Review", rid) := b]> (objects st);
     persisted := persisted st;
     issued := issued st |}.

(** What [review_put] comes to after its loop, when the live review has
    the attributes [b], [own] tells the names that the instance
    dictionary has of the request's making, and [i] is the id that
    [save] reads. *)
Definition put_finish (rid : string) (own : string → bool)
    (i : result string) (b : gmap string json) (st : storage)
  : result response * storage :=
  if own "save" then (Raised TypeError, written rid b st)
  else match i with
       | Ok i =>
           if own "to_json"
           then (Raised TypeError, model_save "Review" i b (written rid b st))
           else (Ok (jsonify (to_json b)),
                 model_save "Review" i b (written rid b st))
       | Aborted status description =>
           (Aborted status description, written rid b st)
       | Raised e => (Raised e, written rid b st)
       end.

Definition put_rest (rid : string) (o : gmap string json)
    (own : string → bool) (i : result string) (b : gmap string json)
    (st : storage) : result response * storage :=
  if bool_decide (is_Some (o !! "__class__"))
  then (Raised TypeError, written rid b st)
  else if bool_decide (is_Some (o !! "__weakref__"))
  then (Raised AttributeError, written rid b st)
  else put_finish rid own i b st.

(** What [review_put] comes to on a dictionary body [o] and an existing
    review with attributes [a], read off the keys of [o]. *)
Definition put_outcome (rid : string) (o a : gmap string json)
    (st : storage) : result response * storage :=
  let b := merge_items (map_to_list (plain o)) a in
  match o !! "__dict__" with
  | None =>
      put_rest rid o
        (λ k, bool_decide (is_Some (plain o !! k) ∧ k ∉ protected_keys))
        (Ok rid) b st
  | Some (JObj d) =>
      put_rest rid o (λ k, bool_decide (is_Some (d !! k))) (id_of d) d st
  | Some _ => (Raised TypeError, written rid b st)
  end.

(** The names that an update cannot take for a plain attribute: the
    special names and the two methods that [review_put] calls. *)
Definition reserved_names : list string :=
  special_names ++ ["save"; "to_json"].

(** The entity that [review_create] builds from a dictionary body [o]. *)
Definition created (place_id uuid now : string) (o : gmap string json)
  : gmap string json :=
  Review_init (<["place_id" := JStr place_id]> o) uuid now.

(** A request dictionary without its protected keys. *)
Definition unprotected (o : gmap string json) : gmap string json :=
  filter (λ kv : string * json, kv.1 ∉ protected_keys) o.

(** A store with no entity at all. *)
Definition empty_storage : storage :=
  {| objects := ∅; persisted := ∅; issued := [] |}.

(** A store with one place, one user and one review of that place. *)
Module Sample.
Definition place : gmap string json :=
  {[ "id" := JStr "p1"; "name" := JStr "Loft" ]}.
Definition user : gmap string json :=
  {[ "id" := JStr "u1"; "email" := JStr "a@b.c" ]}.
Definition review : gmap string json :=
  {[ "id" := JStr "r1"; "place_id" := JStr "p1";
     "user_id" := JStr "u1"; "text" := JStr "ok";
     "created_at" := JStr "t0"; "updated_at" := JStr "t0" ]}.
Definition entities : gmap (string * string) (gmap string json) :=
  {[ ("Place", "p1") := place; ("User", "u1") := user;
     ("Review", "r1") := review ]}.
Definition store : storage :=
  {| objects := entities; persisted := entities; issued := [] |}.

(** A create request for that place and user, with a [place_id] of its
    own in the body; the review, the response and the store that come
    of it when the server draws the id [r2] at time [t1]. *)
Definition great : request_body :=
  Parsed (JObj {[ "user_id" := JStr "u1"; "text" := JStr "great";
                  "place_id" := JStr "elsewhere" ]}).
Definition great_review : gmap string json :=
  {[ "id" := JStr "r2"; "place_id" := JStr "p1";
     "user_id" := JStr "u1"; "text" := JStr "great";
     "created_at" := JStr "t1"; "updated_at" := JStr "t1" ]}.
Definition great_response : response :=
  {| status_code := 201; data := JObj great_review |}.
Definition great_store : storage :=
  {| objects := <[("Review", "r2") := great_review]> entities;
     persisted := <[("Review", "r2") := great_review]> entities;
     issued := [CallSave] |}.

(** An update request for the sample review, and what comes of it. *)
Definition update : request_body :=
  Parsed (JObj {[ "text" := JStr "updated"; "id" := JStr "ignored";
                  "stars" := JNum 5 ]}).
Definition updated_review : gmap string json :=
  {[ "id" := JStr "r1"; "place_id" := JStr "p1";
     "user_id" := JStr "u1"; "text" := JStr "updated";
     "created_at" := JStr "t0"; "updated_at" := JStr "t0";
     "stars" := JNum 5 ]}.
Definition updated_store : storage :=
  {| objects := <[("Review", "r1") := updated_review]> entities;
     persisted := <[("Review", "r1") := updated_review]> entities;
     issued := [CallSave] |}.
End Sample.

(** * Properties *)

(** ** Running a view function *)

Ltac run :=
  unfold mbind, view_bind, mret, view_ret, reads, eval, acts, abort; simpl.

Ltac run_in H :=
  unfold mbind, view_bind, mret, view_ret, reads, eval, acts, abort in H;
  simpl in H.

Lemma storage_eta (st : storage) :
  {| objects := objects st; persisted := persisted st; issued := issued st |}
  = st.
Proof. by destruct st. Qed.

Lemma alter_present {A} (f : A → A) (m : gmap (string * string) A) k a :
  m !! k = Some a → alter f k m = <[k := f a]> m.
Proof.
  intros Hk. apply map_eq. intros j. destruct (decide (k = j)) as [<-|Hne].
  - by rewrite lookup_alter_eq, lookup_insert_eq, Hk.
  - by rewrite lookup_alter_ne, lookup_insert_ne.
Qed.

Lemma for_each_app {A S} (l1 l2 : list A) (body : A → S → view S) s st :
  for_each (l1 ++ l2) body s st
  = match for_each l1 body s st with
    | (Ok s', st') => for_each l2 body s' st'
    | (Aborted status d, st') => (Aborted status d, st')
    | (Raised e, st') => (Raised e, st')
    end.
Proof.
  revert s st. induction l1 as [|x l1 IH]; intros s st; [done|].
  simpl. run. destruct (body x s st) as [[s'| |] st']; [apply IH|done..].
Qed.

(** Over the plain attributes the loop of [review_put] never fails; it
    rewrites the one entity it was given and keeps the names it
    bound. *)
Lemma for_each_put_item rid l obj st :
  (∀ k, k ∈ l.*1 → k ∉ special_names) →
  for_each l (put_item rid) obj st
  = (Ok {| rebuilt := rebuilt obj; bound := bind_items l (bound obj) |},
     mutate "Review" rid (merge_items l) st).
Proof.
  revert obj st. induction l as [|[k v] l IH]; intros obj st Hl.
  - simpl. run. unfold mutate. rewrite alter_id by done.
    rewrite storage_eta. by destruct obj.
  - assert (k ∉ special_names) as Hk by (apply Hl; left).
    assert (∀ k', k' ∈ l.*1 → k' ∉ special_names) as Hl'
      by (intros k' ?; apply Hl; by right).
    assert (Hstep : ∀ a, merge_items ((k, v) :: l) a
      = merge_items l (if bool_decide (k ∈ protected_keys) then a
                       else <[k := v]> a)) by done.
    assert (Hbind : ∀ bs, bind_items ((k, v) :: l) bs
      = bind_items l (if bool_decide (k ∈ protected_keys) then bs
                      else k :: bs)) by done.
    rewrite Hbind. simpl. run. unfold put_item at 1. simpl.
    destruct (bool_decide (k ∈ protected_keys)) eqn:Hp; simpl; run.
    + rewrite (IH obj st Hl'). unfold mutate. do 2 f_equal.
      apply alter_ext. intros a _. by rewrite Hstep.
    + unfold setattr.
      destruct (String.eqb_spec k "__class__") as [->|_];
        [destruct Hk; unfold special_names; set_solver|].
      destruct (String.eqb_spec k "__weakref__") as [->|_];
        [destruct Hk; unfold special_names; set_solver|].
      destruct (String.eqb_spec k "__dict__") as [->|_];
        [destruct Hk; unfold special_names; set_solver|].
      run. rewrite (IH _ _ Hl'). unfold mutate. simpl. do 2 f_equal.
      rewrite alter_alter_eq. apply alter_ext. intros a _. by rewrite Hstep.
Qed.

(** ** The merge performed by [review_put] *)

Section merge.
Implicit Types (l : list (string * json)) (a : gmap string json).

Lemma merge_items_cons k v l a :
  merge_items ((k, v) :: l) a
  = merge_items l (if bool_decide (k ∈ protected_keys) then a
                   else <[k := v]> a).
Proof. reflexivity. Qed.

Lemma lookup_merge_items_protected l a k :
  k ∈ protected_keys → merge_items l a !! k = a !! k.
Proof.
  intros Hk. revert a. induction l as [|[k' v'] l IH]; intros a; [done|].
  rewrite merge_items_cons, IH. case_bool_decide as Hp; [done|].
  apply lookup_insert_ne. by intros ->.
Qed.

Lemma lookup_merge_items_absent l a k :
  k ∉ l.*1 → merge_items l a !! k = a !! k.
Proof.
  revert a. induction l as [|[k' v'] l IH]; intros a Hk; [done|].
  simpl in Hk. apply not_elem_of_cons in Hk as [Hne Hk].
  rewrite merge_items_cons, IH by done. case_bool_decide; [done|].
  by apply lookup_insert_ne.
Qed.

Lemma lookup_merge_items_present l a k v :
  NoDup l.*1 → (k, v) ∈ l → k ∉ protected_keys →
  merge_items l a !! k = Some v.
Proof.
  revert a. induction l as [|[k' v'] l IH]; intros a Hnd Hin Hk.
  - by apply elem_of_nil in Hin.
  - simpl in Hnd. apply NoDup_cons in Hnd as [Hfresh Hnd].
    rewrite merge_items_cons.
    apply elem_of_cons in Hin as [Heq|Hin].
    + simplify_eq. rewrite lookup_merge_items_absent by done.
      rewrite bool_decide_eq_false_2 by done. apply lookup_insert_eq.
    + by apply IH.
Qed.

(** The merged bag, attribute by attribute: a key of the body outside
    the protected set carries the body's value, every other key keeps
    the value it had. *)
Lemma lookup_merge_map (o : gmap string json) a k :
  merge_items (map_to_list o) a !! k
  = if bool_decide (k ∈ protected_keys) then a !! k
    else match o !! k with Some v => Some v | None => a !! k end.
Proof.
  case_bool_decide as Hp.
  - by apply lookup_merge_items_protected.
  - destruct (o !! k) as [v|] eqn:Hk.
    + apply lookup_merge_items_present; [|by apply elem_of_map_to_list|done].
      apply NoDup_fst_map_to_list.
    + apply lookup_merge_items_absent.
      intros ([k' v] & -> & Hin)%list_elem_of_fmap.
      apply elem_of_map_to_list in Hin. simpl in Hk. congruence.
Qed.
End merge.

(** ** [review_put] on a dictionary body *)

(** Whether a given name is in a given list of names. *)
Ltac in_list := apply (bool_decide_unpack _); vm_compute; exact I.
Lemma plain_keys (o : gmap string json) k :
  k ∈ (map_to_list (plain o)).*1 → k ∉ special_names.
Proof.
  intros ([k' v] & -> & Hin)%list_elem_of_fmap.
  apply elem_of_map_to_list in Hin. unfold plain in Hin.
  by apply map_lookup_filter_Some in Hin as [_ ?].
Qed.

Lemma mutate_present rid f a st :
  objects st !! ("Review", rid) = Some a →
  mutate "Review" rid f st = written rid (f a) st.
Proof. intros Ha. unfold mutate, written. by erewrite alter_present. Qed.

Lemma mutate_written rid f b st :
  mutate "Review" rid f (written rid b st) = written rid (f b) st.
Proof.
  unfold mutate, written. simpl.
  erewrite alter_present by apply lookup_insert_eq.
  by rewrite insert_insert_eq.
Qed.

Lemma entity_written rid b st : entity "Review" rid (written rid b st) = b.
Proof. unfold entity, written. simpl. by rewrite lookup_insert_eq. Qed.

Lemma entity_saved rid i b st :
  entity "Review" rid (model_save "Review" i b (written rid b st)) = b.
Proof.
  unfold entity, model_save, written. simpl.
  destruct (decide (i = rid)) as [->|Hne].
  - by rewrite lookup_insert_eq.
  - rewrite lookup_insert_ne by congruence. by rewrite lookup_insert_eq.
Qed.

(** The two method calls that end [review_put]. *)
Lemma put_finish_run rid obj b st :
  (let (r, st') :=
     call "Review" rid "save" obj (save "Review" rid obj) (written rid b st) in
   match r with
   | Ok _ =>
       call "Review" rid "to_json" obj
         (λ st0 : storage,
            (Ok (jsonify (to_json (entity "Review" rid st0))), st0))
         st'
   | Aborted s d => (Aborted s d, st')
   | Raised e => (Raised e, st')
   end)
  = put_finish rid
      (λ k, if rebuilt obj then bool_decide (is_Some (b !! k))
            else bool_decide (k ∈ bound obj))
      (if rebuilt obj then id_of b else Ok rid) b st.
Proof.
  unfold put_finish, call, has_own, save, own_id. run.
  rewrite !entity_written.
  destruct (rebuilt obj) eqn:Hr.
  - destruct (bool_decide (is_Some (b !! "save"))); [done|].
    destruct (id_of b) as [i| |]; simpl; [|done..].
    by rewrite ?entity_written, ?entity_saved.
  - destruct (bool_decide ("save" ∈ bound obj)); [done|]. simpl.
    by rewrite ?entity_written, ?entity_saved.
Qed.

Lemma elem_of_bind_items l bs k :
  k ∈ bind_items l bs ↔ k ∈ bs ∨ (k ∈ l.*1 ∧ k ∉ protected_keys).
Proof.
  revert bs. induction l as [|[k' v] l IH]; intros bs.
  - simpl. split; [by left|]. intros [?|[?%elem_of_nil ?]]; done.
  - assert (Hbind : bind_items ((k', v) :: l) bs
      = bind_items l (if bool_decide (k' ∈ protected_keys) then bs
                      else k' :: bs)) by done.
    rewrite Hbind, IH. simpl. rewrite elem_of_cons.
    case_bool_decide as Hp; [|rewrite elem_of_cons]; split.
    + intros [?|[? ?]]; auto.
    + intros [?|[[->|?] ?]]; auto. done.
    + intros [[->|?]|[? ?]]; auto.
    + intros [?|[[->|?] ?]]; auto.
Qed.

Lemma elem_of_bind_items_map (m : gmap string json) k :
  k ∈ bind_items (map_to_list m) []
  ↔ is_Some (m !! k) ∧ k ∉ protected_keys.
Proof.
  rewrite elem_of_bind_items. split.
  - intros [?%elem_of_nil|[Hin ?]]; [done|]. split; [|done].
    apply list_elem_of_fmap in Hin as ([k' v] & -> & Hin).
    apply elem_of_map_to_list in Hin. by exists v.
  - intros [[v Hv] ?]. right. split; [|done].
    apply list_elem_of_fmap. exists (k, v). split; [done|].
    by apply elem_of_map_to_list.
Qed.

Lemma put_finish_ext rid own own' i b st :
  own "save" = own' "save" → own "to_json" = own' "to_json" →
  put_finish rid own i b st = put_finish rid own' i b st.
Proof. unfold put_finish. by intros -> ->. Qed.

(** [review_put] on a dictionary body and an existing review. *)
Lemma review_put_object rid o a st :
  storage_get "Review" (JStr rid) st = Some a →
  review_put rid (Parsed (JObj o)) st = put_outcome rid o a st.
Proof.
  intros Ha. simpl in Ha. unfold review_put. simpl. run. rewrite Ha.
  rewrite for_each_app, for_each_put_item by apply plain_keys.
  rewrite (mutate_present _ _ _ _ Ha).
  unfold put_outcome, specials, put_rest. simpl.
  destruct (o !! "__dict__") as [vd|] eqn:Hd;
    destruct (o !! "__class__") as [vc|] eqn:Hc;
    destruct (o !! "__weakref__") as [vw|] eqn:Hw; simpl;
    unfold put_item; simpl;
    try change (bool_decide ("__dict__" ∈ protected_keys)) with false;
    try change (bool_decide ("__class__" ∈ protected_keys)) with false;
    try change (bool_decide ("__weakref__" ∈ protected_keys)) with false;
    simpl; unfold setattr; simpl; run;
    try (destruct vd; simpl; rewrite ?mutate_written; try done);
    rewrite ?put_finish_run; simpl; try done.
  apply put_finish_ext; apply bool_decide_ext, elem_of_bind_items_map.
Qed.

Lemma lookup_plain (o : gmap string json) k :
  plain o !! k = if bool_decide (k ∈ special_names) then None else o !! k.
Proof.
  unfold plain. case_bool_decide as Hs.
  - apply map_lookup_filter_None. right. intros v _ Hk. by apply Hk.
  - destruct (o !! k) as [v|] eqn:Hk.
    + by apply map_lookup_filter_Some.
    + apply map_lookup_filter_None. by left.
Qed.


Lemma id_of_not_aborted (b : gmap string json) status description :
  id_of b ≠ Aborted status description.
Proof. unfold id_of. by repeat case_match. Qed.

(** On a dictionary body [review_put] answers or raises. *)
Lemma put_outcome_not_aborted rid o a st status description st' :
  put_outcome rid o a st ≠ (Aborted status description, st').
Proof.
  unfold put_outcome, put_rest, put_finish.
  repeat case_match; try done.
  all: intros [= Hi _]; by eapply id_of_not_aborted.
Qed.


(** ** [review_create], branch by branch *)

Section create.
Variables (place_id uuid now : string) (st : storage).

Lemma review_create_not_json body :
  get_json_silent body = JNull →
  review_create place_id body uuid now st
  = (Aborted 400 (Some "Not a JSON"), st).
Proof. intros Hb. unfold review_create. by rewrite Hb. Qed.

Lemma review_create_no_place body :
  get_json_silent body ≠ JNull →
  storage_get "Place" (JStr place_id) st = None →
  review_create place_id body uuid now st = (Aborted 404 None, st).
Proof.
  intros Hb Hp. unfold review_create.
  destruct (get_json_silent body); try done; run; simpl in Hp;
    by rewrite Hp.
Qed.

Lemma review_create_non_object v place :
  v ≠ JNull → (∀ o, v ≠ JObj o) →
  storage_get "Place" (JStr place_id) st = Some place →
  review_create place_id (Parsed v) uuid now st = (Raised TypeError, st).
Proof.
  intros Hn Ho Hp. unfold review_create. simpl in Hp.
  destruct v; try done; run; rewrite Hp; try done.
  by destruct (Ho o).
Qed.

Lemma review_create_object o place :
  storage_get "Place" (JStr place_id) st = Some place →
  review_create place_id (Parsed (JObj o)) uuid now st
  = match o !! "user_id" with
    | None => (Raised (KeyError "user_id"), st)
    | Some user_id =>
        match storage_get "User" user_id st with
        | None => (Aborted 404 None, st)
        | Some _ =>
            match o !! "text" with
            | None => (Aborted 400 (Some "Missing text"), st)
            | Some _ =>
                (Ok {| status_code := 201;
                       data := to_json (created place_id uuid now o) |},
                 model_save "Review" uuid (created place_id uuid now o) st)
            end
        end
    end.
Proof.
  intros Hp. unfold review_create. simpl in Hp. simpl. run. rewrite Hp.
  simpl. destruct (o !! "user_id") as [user_id|] eqn:Hu; [|done].
  destruct (storage_get "User" user_id st) as [user|] eqn:Hs; [|done].
  simpl. destruct (o !! "text") as [text|] eqn:Ht; done.
Qed.

(** A create that answers with a response went through every check. *)
Lemma review_create_ok_inv body resp st' :
  review_create place_id body uuid now st = (Ok resp, st') →
  ∃ o user_id text,
    body = Parsed (JObj o)
    ∧ is_Some (storage_get "Place" (JStr place_id) st)
    ∧ o !! "user_id" = Some user_id
    ∧ is_Some (storage_get "User" user_id st)
    ∧ o !! "text" = Some text
    ∧ resp = {| status_code := 201;
                data := to_json (created place_id uuid now o) |}
    ∧ st' = model_save "Review" uuid (created place_id uuid now o) st.
Proof.
  intros Hrun.
  destruct body as [|v].
  { by rewrite review_create_not_json in Hrun. }
  destruct (storage_get "Place" (JStr place_id) st) as [place|] eqn:Hp.
  2: { destruct v; solve
         [ by rewrite review_create_not_json in Hrun
         | by rewrite review_create_no_place in Hrun ]. }
  destruct v as [| | | | |o];
    try solve [ by rewrite review_create_not_json in Hrun
              | by erewrite review_create_non_object in Hrun ].
  erewrite review_create_object in Hrun by done.
  destruct (o !! "user_id") as [user_id|] eqn:Hu; [|done].
  destruct (storage_get "User" user_id st) as [user|] eqn:Hs; [|done].
  destruct (o !! "text") as [text|] eqn:Ht; [|done].
  simplify_eq. exists o, user_id, text. by rewrite Hs.
Qed.
End create.

Lemma review_create_never_missing_user_id place_id body uuid now st :
  fst (review_create place_id body uuid now st)
  ≠ Aborted 400 (Some "Missing user_id").
Proof.
  destruct (storage_get "Place" (JStr place_id) st) as [place|] eqn:Hp.
  - destruct body as [|[| | | | |o]];
      try solve [ by rewrite review_create_not_json
                | by erewrite review_create_non_object ].
    erewrite review_create_object by done.
    by repeat case_match.
  - destruct body as [|[]];
      solve [ by rewrite review_create_not_json
            | by rewrite review_create_no_place ].
Qed.

(** ** The claims *)

(** C1. In [review_create], once the body has decoded and the Place
    exists, the User is looked up under [review_json["user_id"]] before
    the body is asked whether it has a [user_id] key.  Hence every
    dictionary body without that key, sent for an existing Place, makes
    the handler fail on the lookup itself with [KeyError], the store left
    as it was; and no request at all is answered with the 400
    "Missing user_id". *)
Theorem review_create_looks_up_user_before_key_check
    place_id uuid now (o : gmap string json) place st :
  storage_get "Place" (JStr place_id) st = Some place →
  o !! "user_id" = None →
  review_create place_id (Parsed (JObj o)) uuid now st
  = (Raised (KeyError "user_id"), st)
  ∧ ∀ body st0,
      fst (review_create place_id body uuid now st0)
      ≠ Aborted 400 (Some "Missing user_id").
Proof.
  intros Hp Hu. split.
  - erewrite review_create_object by done. by rewrite Hu.
  - intros body st0. apply review_create_never_missing_user_id.
Qed.

Lemma review_create_looks_up_user_before_key_check_witness :
  storage_get "Place" (JStr "p1") Sample.store = Some Sample.place
  ∧ ({[ "text" := JStr "great" ]} : gmap string json) !! "user_id" = None
  ∧ review_create "p1" (Parsed (JObj {[ "text" := JStr "great" ]}))
      "r2" "t1" Sample.store
    = (Raised (KeyError "user_id"), Sample.store).
Proof.
  split; [reflexivity|]. split; [reflexivity|].
  apply (review_create_looks_up_user_before_key_check
           "p1" "r2" "t1" {[ "text" := JStr "great" ]}
           Sample.place Sample.store); reflexivity.
Defined.

(** C2, as the code has it.  A create under a place id with no Place is
    answered 404 for every body that decodes to a value other than
    [None], whatever the value; a body that does not decode (or decodes
    to [null]) is answered 400 "Not a JSON" first.  The store is left as
    it was in both cases. *)
Theorem review_create_without_place place_id body uuid now st :
  storage_get "Place" (JStr place_id) st = None →
  review_create place_id body uuid now st
  = (if is_None (get_json_silent body)
     then Aborted 400 (Some "Not a JSON")
     else Aborted 404 None,
     st).
Proof.
  intros Hp. destruct (is_None (get_json_silent body)) eqn:Hb.
  - apply review_create_not_json. by destruct (get_json_silent body).
  - apply review_create_no_place; [|done]. by intros Hn; rewrite Hn in Hb.
Qed.

Lemma review_create_without_place_witness :
  storage_get "Place" (JStr "p9") Sample.store = None
  ∧ review_create "p9" (Parsed (JArr [JNum 1])) "r2" "t1" Sample.store
    = (Aborted 404 None, Sample.store).
Proof.
  split; [reflexivity|].
  apply (review_create_without_place
           "p9" (Parsed (JArr [JNum 1])) "r2" "t1" Sample.store).
  reflexivity.
Defined.

(** C2, as stated, fails: with no Place and a body that does not decode
    as JSON the answer is 400, not 404. *)
Lemma review_create_without_place_unparsable :
  storage_get "Place" (JStr "p9") Sample.store = None
  ∧ fst (review_create "p9" Unparsable "r2" "t1" Sample.store)
    = Aborted 400 (Some "Not a JSON")
  ∧ fst (review_create "p9" Unparsable "r2" "t1" Sample.store)
    ≠ Aborted 404 None.
Proof. split; [reflexivity|]. split; [reflexivity|discriminate]. Qed.

(** C3 does not hold of the code.  The loop of [review_put] keeps the
    protected keys out of [setattr], but not [__dict__]: a body that
    assigns it replaces every attribute of the review, the protected
    ones among them, and the update still answers 200; the review is
    then also entered under its new id.  Nor can every other key be
    added: a body with the key [__class__] makes [setattr] raise
    [TypeError]. *)
Theorem review_put_dict_replaces_protected :
  storage_get "Review" (JStr "r1") Sample.store = Some Sample.review
  ∧ Sample.review !! "id" = Some (JStr "r1")
  ∧ Sample.review !! "place_id" = Some (JStr "p1")
  ∧ (∃ st',
       review_put "r1"
         (Parsed (JObj {[ "__dict__" := JObj {[ "id" := JStr "hacked" ]} ]}))
         Sample.store
       = (Ok {| status_code := 200;
                data := JObj {[ "id" := JStr "hacked" ]} |}, st')
       ∧ storage_get "Review" (JStr "r1") st'
         = Some {[ "id" := JStr "hacked" ]}
       ∧ storage_get "Review" (JStr "hacked") st'
         = Some {[ "id" := JStr "hacked" ]})
  ∧ review_put "r1" (Parsed (JObj {[ "__class__" := JStr "Review" ]}))
      Sample.store
    = (Raised TypeError, Sample.store).
Proof.
  do 3 (split; [reflexivity|]). split; [|reflexivity].
  eexists. split; [reflexivity|]. split; reflexivity.
Qed.

(** The specification's example: the text changes, [id] and [place_id]
    stay. *)
Example review_put_ignores_id_and_place_id :
  ∃ a' st',
    review_put "r1"
      (Parsed (JObj {[ "text" := JStr "updated"; "id" := JStr "ignored";
                       "place_id" := JStr "ignored" ]}))
      Sample.store
    = (Ok {| status_code := 200; data := JObj a' |}, st')
    ∧ a' !! "text" = Some (JStr "updated")
    ∧ a' !! "id" = Some (JStr "r1")
    ∧ a' !! "place_id" = Some (JStr "p1").
Proof. eexists _, _. split; [reflexivity|]. by vm_compute. Qed.

(** Attributes of a freshly built review. *)
Lemma lookup_created place_id uuid now o k :
  created place_id uuid now o !! k
  = if decide (k = "updated_at") then Some (JStr now)
    else if decide (k = "created_at") then Some (JStr now)
    else if decide (k = "id") then Some (JStr uuid)
    else if decide (k = "place_id") then Some (JStr place_id)
    else o !! k.
Proof.
  unfold created, Review_init.
  repeat (case_decide; [subst k; by simplify_map_eq|]).
  by rewrite !lookup_insert_ne.
Qed.

(** C4. Round trip: when a create succeeds, its response is a 201 whose
    body is a dictionary with a string [id], and fetching the review by
    that id straight away answers 200 with the very same JSON, without
    touching the store. *)
Theorem review_create_then_review_by_id
    place_id body uuid now st resp st' :
  review_create place_id body uuid now st = (Ok resp, st') →
  ∃ o rid,
    status_code resp = 201
    ∧ data resp = JObj o
    ∧ o !! "id" = Some (JStr rid)
    ∧ review_by_id rid st'
      = (Ok {| status_code := 200; data := data resp |}, st').
Proof.
  intros (o & user_id & text & -> & _ & _ & _ & _ & -> & ->)
    %review_create_ok_inv.
  exists (created place_id uuid now o), uuid. repeat split.
  - by rewrite lookup_created.
  - unfold review_by_id. run. by rewrite lookup_insert_eq.
Qed.

Lemma review_create_then_review_by_id_witness :
  review_create "p1" Sample.great "r2" "t1" Sample.store
  = (Ok Sample.great_response, Sample.great_store)
  ∧ ∃ o rid,
      status_code Sample.great_response = 201
      ∧ data Sample.great_response = JObj o
      ∧ o !! "id" = Some (JStr rid)
      ∧ review_by_id rid Sample.great_store
        = (Ok {| status_code := 200; data := data Sample.great_response |},
           Sample.great_store).
Proof.
  split; [reflexivity|].
  apply (review_create_then_review_by_id
           "p1" Sample.great "r2" "t1" Sample.store).
  reflexivity.
Defined.

(** [review_delete_by_id] answers with a response exactly when the
    review exists. *)
Lemma review_delete_by_id_run rid st :
  review_delete_by_id rid st
  = match storage_get "Review" (JStr rid) st with
    | None => (Aborted 404 None, st)
    | Some _ =>
        (Ok (jsonify (JObj ∅)),
         storage_save (storage_delete "Review" rid st))
    end.
Proof.
  unfold review_delete_by_id. run.
  by destruct (objects st !! ("Review", rid)).
Qed.

(** C5. A successful delete of a review answers 200 with the empty JSON
    object; it has removed the review from the store and persisted the
    removal, by one delete and one save issued to the storage layer; and
    a get of the same id that follows is answered 404. *)
Theorem review_delete_by_id_then_review_by_id rid st resp st' :
  review_delete_by_id rid st = (Ok resp, st') →
  resp = {| status_code := 200; data := JObj ∅ |}
  ∧ is_Some (storage_get "Review" (JStr rid) st)
  ∧ storage_get "Review" (JStr rid) st' = None
  ∧ objects st' = delete ("Review", rid) (objects st)
  ∧ persisted st' = objects st'
  ∧ issued st' = (issued st ++ [CallDelete "Review" rid; CallSave])%list
  ∧ review_by_id rid st' = (Aborted 404 None, st').
Proof.
  rewrite review_delete_by_id_run.
  destruct (storage_get "Review" (JStr rid) st) as [a|] eqn:Ha; [|done].
  intros [= <- <-]. repeat split; try done.
  - simpl. apply lookup_delete_eq.
  - simpl. by rewrite <- app_assoc.
  - unfold review_by_id. run. by rewrite lookup_delete_eq.
Qed.

Lemma review_delete_by_id_then_review_by_id_witness :
  review_delete_by_id "r2" Sample.great_store
  = (Ok {| status_code := 200; data := JObj ∅ |},
     {| objects := Sample.entities; persisted := Sample.entities;
        issued := [CallSave; CallDelete "Review" "r2"; CallSave] |})
  ∧ review_by_id "r2"
      {| objects := Sample.entities; persisted := Sample.entities;
         issued := [CallSave; CallDelete "Review" "r2"; CallSave] |}
    = (Aborted 404 None,
       {| objects := Sample.entities; persisted := Sample.entities;
          issued := [CallSave; CallDelete "Review" "r2"; CallSave] |}).
Proof.
  split; [reflexivity|].
  apply (review_delete_by_id_then_review_by_id "r2" Sample.great_store
           {| status_code := 200; data := JObj ∅ |}
           {| objects := Sample.entities; persisted := Sample.entities;
              issued := [CallSave; CallDelete "Review" "r2"; CallSave] |}).
  reflexivity.
Defined.

(** C6. A create for an existing Place, with a dictionary body whose
    [user_id] names an existing User and which has a [text], answers 201
    with a JSON object that carries the submitted [text], the id drawn by
    the server as [id], and the place id of the path as [place_id]. *)
Theorem review_create_created
    place_id uuid now (o : gmap string json) place user_id user text st :
  storage_get "Place" (JStr place_id) st = Some place →
  o !! "user_id" = Some user_id →
  storage_get "User" user_id st = Some user →
  o !! "text" = Some text →
  ∃ r st',
    review_create place_id (Parsed (JObj o)) uuid now st
    = (Ok {| status_code := 201; data := JObj r |}, st')
    ∧ r !! "text" = Some text
    ∧ r !! "id" = Some (JStr uuid)
    ∧ r !! "place_id" = Some (JStr place_id).
Proof.
  intros Hp Hu Hs Ht. eexists _, _. split.
  - erewrite review_create_object by done. by rewrite Hu, Hs, Ht.
  - by rewrite !lookup_created.
Qed.

Lemma review_create_created_witness :
  storage_get "Place" (JStr "p1") Sample.store = Some Sample.place
  ∧ ({[ "user_id" := JStr "u1"; "text" := JStr "great" ]}
       : gmap string json) !! "user_id" = Some (JStr "u1")
  ∧ storage_get "User" (JStr "u1") Sample.store = Some Sample.user
  ∧ ({[ "user_id" := JStr "u1"; "text" := JStr "great" ]}
       : gmap string json) !! "text" = Some (JStr "great")
  ∧ ∃ r st',
      review_create "p1"
        (Parsed (JObj {[ "user_id" := JStr "u1"; "text" := JStr "great" ]}))
        "r2" "t1" Sample.store
      = (Ok {| status_code := 201; data := JObj r |}, st')
      ∧ r !! "text" = Some (JStr "great")
      ∧ r !! "id" = Some (JStr "r2")
      ∧ r !! "place_id" = Some (JStr "p1").
Proof.
  repeat (split; [reflexivity|]).
  apply (review_create_created "p1" "r2" "t1"
           {[ "user_id" := JStr "u1"; "text" := JStr "great" ]}
           Sample.place (JStr "u1") Sample.user (JStr "great")
           Sample.store); reflexivity.
Defined.

(** C10. In [review_create] the place id of the path is written over
    whatever [place_id] the body brought, before the Review is built:
    after every successful create the review that the store holds (and
    has persisted) under the returned id, which is the one in the
    response, has the path's place id as its [place_id]. *)
Theorem review_create_place_id_from_path
    place_id body uuid now st resp st' :
  review_create place_id body uuid now st = (Ok resp, st') →
  ∃ a,
    data resp = JObj a
    ∧ a !! "id" = Some (JStr uuid)
    ∧ storage_get "Review" (JStr uuid) st' = Some a
    ∧ persisted st' !! ("Review", uuid) = Some a
    ∧ a !! "place_id" = Some (JStr place_id).
Proof.
  intros (o & user_id & text & -> & _ & _ & _ & _ & -> & ->)
    %review_create_ok_inv.
  exists (created place_id uuid now o). simpl.
  rewrite !lookup_insert_eq, !lookup_created. by repeat split.
Qed.

Lemma review_create_place_id_from_path_witness :
  review_create "p1" Sample.great "r2" "t1" Sample.store
  = (Ok Sample.great_response, Sample.great_store)
  ∧ ∃ a,
      data Sample.great_response = JObj a
      ∧ a !! "id" = Some (JStr "r2")
      ∧ storage_get "Review" (JStr "r2") Sample.great_store = Some a
      ∧ persisted Sample.great_store !! ("Review", "r2") = Some a
      ∧ a !! "place_id" = Some (JStr "p1").
Proof.
  split; [reflexivity|].
  apply (review_create_place_id_from_path
           "p1" Sample.great "r2" "t1" Sample.store).
  reflexivity.
Defined.

(** ** Listing *)

(** The list built by appending in a loop is the mapped list. *)
Lemma foldl_append_to_json (acc : list json) l :
  foldl (λ acc obj, (acc ++ [to_json obj])%list) acc l
  = (acc ++ (to_json <$> l))%list.
Proof.
  revert acc. induction l as [|a l IH]; intros acc; simpl.
  - by rewrite app_nil_r.
  - rewrite IH. by rewrite <- app_assoc.
Qed.

(** [place.reviews] holds the stored reviews whose [place_id] is the
    place's id, and nothing else. *)
Lemma elem_of_place_reviews place_id st (a : gmap string json) :
  a ∈ place_reviews place_id st
  ↔ ∃ rid, objects st !! ("Review", rid) = Some a
           ∧ a !! "place_id" = Some (JStr place_id).
Proof.
  unfold place_reviews. rewrite list_elem_of_omap. split.
  - intros ([[cls rid] a'] & Hin & Hf). simpl in Hf.
    apply elem_of_map_to_list in Hin.
    destruct (String.eqb cls "Review") eqn:Hc; [|done].
    apply String.eqb_eq in Hc as ->. unfold belongs_to in Hf. simpl in Hf.
    destruct (a' !! "place_id") as [[]|] eqn:Hpl; try done.
    destruct (String.eqb s place_id) eqn:Hs; [|done].
    apply String.eqb_eq in Hs as ->. simplify_eq. by exists rid.
  - intros (rid & Ha & Hpl). exists (("Review", rid), a). split.
    + by apply elem_of_map_to_list.
    + simpl. unfold belongs_to. by rewrite Hpl, String.eqb_refl.
Qed.

Lemma reviews_by_place_run place_id st :
  reviews_by_place place_id st
  = (match storage_get "Place" (JStr place_id) st with
     | None => Aborted 404 None
     | Some _ =>
         Ok {| status_code := 200;
               data := JArr (to_json <$> place_reviews place_id st) |}
     end,
     st).
Proof.
  unfold reviews_by_place. run.
  destruct (objects st !! ("Place", place_id)); [|done].
  by rewrite foldl_append_to_json.
Qed.



(** On the sample store the place has its one review. *)
Example reviews_by_place_sample :
  reviews_by_place "p1" Sample.store
  = (Ok {| status_code := 200; data := JArr [JObj Sample.review] |},
     Sample.store).
Proof. reflexivity. Qed.

(** ** [review_put], branch by branch *)

Section put.
Variables (rid : string) (st : storage).

Lemma review_put_not_json body :
  get_json_silent body = JNull →
  review_put rid body st = (Aborted 400 (Some "Not a JSON"), st).
Proof. intros Hb. unfold review_put. by rewrite Hb. Qed.

Lemma review_put_no_review body :
  get_json_silent body ≠ JNull →
  storage_get "Review" (JStr rid) st = None →
  review_put rid body st = (Aborted 404 None, st).
Proof.
  intros Hb Hr. unfold review_put. simpl in Hr.
  destruct (get_json_silent body); try done; run; by rewrite Hr.
Qed.

Lemma review_put_non_object v a :
  v ≠ JNull → (∀ o, v ≠ JObj o) →
  storage_get "Review" (JStr rid) st = Some a →
  review_put rid (Parsed v) st = (Raised AttributeError, st).
Proof.
  intros Hn Ho Hr. unfold review_put. simpl in Hr.
  destruct v; try done; run; rewrite Hr; try done.
  by destruct (Ho o).
Qed.
End put.

(** What a view function that aborts leaves behind. *)
Lemma review_create_aborted
    place_id body uuid now st status description st' :
  review_create place_id body uuid now st
  = (Aborted status description, st') →
  (status = 400 ∨ status = 404) ∧ st' = st.
Proof.
  destruct (storage_get "Place" (JStr place_id) st) as [place|] eqn:Hp.
  - destruct body as [|[| | | | |o]];
      try solve
        [ rewrite review_create_not_json by done; intros [= <- <- <-]; auto
        | erewrite review_create_non_object by done; discriminate ].
    erewrite review_create_object by done.
    intros Hrun. repeat case_match; simplify_eq; auto.
  - destruct body as [|[]];
      solve
        [ rewrite review_create_not_json by done; intros [= <- <- <-]; auto
        | rewrite review_create_no_place by done; intros [= <- <- <-]; auto ].
Qed.

Lemma review_put_aborted rid body st status description st' :
  review_put rid body st = (Aborted status description, st') →
  (status = 400 ∨ status = 404) ∧ st' = st.
Proof.
  destruct (storage_get "Review" (JStr rid) st) as [a|] eqn:Hr.
  - destruct body as [|[| | | | |o]];
      try solve
        [ rewrite review_put_not_json by done; intros [= <- <- <-]; auto
        | erewrite review_put_non_object by done; discriminate ].
    erewrite review_put_object by done.
    intros Hrun. by apply put_outcome_not_aborted in Hrun.
  - destruct body as [|[]];
      solve
        [ rewrite review_put_not_json by done; intros [= <- <- <-]; auto
        | rewrite review_put_no_review by done; intros [= <- <- <-]; auto ].
Qed.

(** C8. Whatever the route and the request, a view function that ends in
    an abort ends with status 400 or 404 and hands back the store it was
    given: the live entities, what is persisted, and the list of saves
    and deletes issued to the storage layer are all as before. *)
Theorem aborted_request_leaves_storage r st status description st' :
  dispatch r st = (Aborted status description, st') →
  (status = 400 ∨ status = 404)
  ∧ st' = st
  ∧ issued st' = issued st.
Proof.
  intros Hrun.
  cut ((status = 400 ∨ status = 404) ∧ st' = st).
  { intros [? ->]. done. }
  destruct r as [p|p b uuid now|rid|rid b|rid]; simpl in Hrun.
  - rewrite reviews_by_place_run in Hrun.
    destruct (storage_get "Place" (JStr p) st); simplify_eq; auto.
  - by eapply review_create_aborted.
  - unfold review_by_id in Hrun. run_in Hrun.
    destruct (objects st !! ("Review", rid)); simplify_eq; auto.
  - by eapply review_put_aborted.
  - rewrite review_delete_by_id_run in Hrun.
    destruct (storage_get "Review" (JStr rid) st); simplify_eq; auto.
Qed.

Lemma aborted_request_leaves_storage_witness :
  dispatch (PUT_reviews "r9" (Parsed (JObj {[ "text" := JStr "late" ]})))
    Sample.store
  = (Aborted 404 None, Sample.store)
  ∧ (404 = 400 ∨ 404 = 404)
  ∧ Sample.store = Sample.store
  ∧ issued Sample.store = issued Sample.store.
Proof.
  split; [reflexivity|].
  apply (aborted_request_leaves_storage
           (PUT_reviews "r9" (Parsed (JObj {[ "text" := JStr "late" ]})))
           Sample.store 404 None Sample.store).
  reflexivity.
Defined.

(** ** Bodies that are not dictionaries *)

Lemma review_create_not_a_json place_id body uuid now st :
  fst (review_create place_id body uuid now st)
  = Aborted 400 (Some "Not a JSON")
  ↔ get_json_silent body = JNull.
Proof.
  split; [|intros Hb; by rewrite review_create_not_json].
  destruct (storage_get "Place" (JStr place_id) st) as [place|] eqn:Hp.
  - destruct body as [|[| | | | |o]]; try done;
      try (by erewrite review_create_non_object).
    erewrite review_create_object by done. by repeat case_match.
  - destruct body as [|[]]; try done; by rewrite review_create_no_place.
Qed.

Lemma review_put_not_a_json rid body st :
  fst (review_put rid body st) = Aborted 400 (Some "Not a JSON")
  ↔ get_json_silent body = JNull.
Proof.
  split; [|intros Hb; by rewrite review_put_not_json].
  destruct (storage_get "Review" (JStr rid) st) as [a|] eqn:Hr.
  - destruct body as [|[| | | | |o]]; try done;
      try (by erewrite review_put_non_object).
    erewrite review_put_object by done.
    destruct (put_outcome rid o a st) as [[| |] st'] eqn:Hrun; try done.
    by apply put_outcome_not_aborted in Hrun.
  - destruct body as [|[]]; try done; by rewrite review_put_no_review.
Qed.

(** C9, as the code has it.  The "Not a JSON" check of [review_create]
    and [review_put] rejects exactly the bodies for which
    [get_json(silent=True)] yields [None]: those that do not decode, and
    the JSON literal [null].  Every other body that is not a dictionary
    (an array, a number, a string, a boolean) passes the check and makes
    the handler raise instead of answering 400: [review_create] raises
    [TypeError] on [review_json["user_id"]] once the Place exists, and
    [review_put] raises [AttributeError] on [.items()] once the Review
    exists.  The store is left as it was. *)
Theorem non_dictionary_body_raises :
  (∀ place_id body uuid now st,
     fst (review_create place_id body uuid now st)
     = Aborted 400 (Some "Not a JSON")
     ↔ get_json_silent body = JNull)
  ∧ (∀ rid body st,
       fst (review_put rid body st) = Aborted 400 (Some "Not a JSON")
       ↔ get_json_silent body = JNull)
  ∧ (∀ v, v ≠ JNull → (∀ o, v ≠ JObj o) →
       (∀ place_id uuid now st place,
          storage_get "Place" (JStr place_id) st = Some place →
          review_create place_id (Parsed v) uuid now st
          = (Raised TypeError, st))
       ∧ (∀ rid st a,
            storage_get "Review" (JStr rid) st = Some a →
            review_put rid (Parsed v) st = (Raised AttributeError, st))).
Proof.
  split; [apply review_create_not_a_json|].
  split; [apply review_put_not_a_json|].
  intros v Hn Ho. split.
  - intros. by eapply review_create_non_object.
  - intros. by eapply review_put_non_object.
Qed.

Lemma non_dictionary_body_raises_witness :
  JArr [JStr "text"] ≠ JNull
  ∧ (∀ o, JArr [JStr "text"] ≠ JObj o)
  ∧ storage_get "Place" (JStr "p1") Sample.store = Some Sample.place
  ∧ storage_get "Review" (JStr "r1") Sample.store = Some Sample.review
  ∧ review_create "p1" (Parsed (JArr [JStr "text"])) "r2" "t1" Sample.store
    = (Raised TypeError, Sample.store)
  ∧ review_put "r1" (Parsed (JArr [JStr "text"])) Sample.store
    = (Raised AttributeError, Sample.store).
Proof.
  split; [discriminate|]. split; [discriminate|].
  split; [reflexivity|]. split; [reflexivity|].
  destruct (proj2 (proj2 non_dictionary_body_raises) (JArr [JStr "text"]))
    as [Hcreate Hput]; [discriminate | discriminate |].
  split.
  - apply (Hcreate "p1" "r2" "t1" Sample.store Sample.place). reflexivity.
  - apply (Hput "r1" Sample.store Sample.review). reflexivity.
Defined.

(** C9, as stated, fails in its last part: the body [null] decodes as
    JSON, and both handlers answer it with 400 "Not a JSON". *)
Lemma not_a_json_rejects_null :
  Parsed JNull ≠ Unparsable
  ∧ fst (review_create "p1" (Parsed JNull) "r2" "t1" Sample.store)
    = Aborted 400 (Some "Not a JSON")
  ∧ fst (review_put "r1" (Parsed JNull) Sample.store)
    = Aborted 400 (Some "Not a JSON").
Proof. split; [discriminate|]. split; reflexivity. Qed.


(** * Further properties of the view functions *)

(** ** Updating *)

Lemma lookup_plain_method (o : gmap string json) k :
  k ∉ special_names → k ∉ protected_keys →
  bool_decide (is_Some (plain o !! k) ∧ k ∉ protected_keys)
  = bool_decide (is_Some (o !! k)).
Proof.
  intros Hs Hp. apply bool_decide_ext. rewrite lookup_plain.
  rewrite bool_decide_eq_false_2 by done. tauto.
Qed.

(** An update of a dictionary body that answers: either the body leaves
    [__dict__] alone, and then it has none of the reserved names and
    the review has the merged attributes; or it assigns a dictionary
    [d] to [__dict__], and then the review has the attributes [d], which
    hold a string id and neither method name. *)
Lemma put_outcome_ok_inv rid o a st resp st' :
  put_outcome rid o a st = (Ok resp, st') →
  ∃ b i,
    resp = jsonify (to_json b)
    ∧ st' = model_save "Review" i b (written rid b st)
    ∧ o !! "__class__" = None
    ∧ o !! "__weakref__" = None
    ∧ ((o !! "__dict__" = None
        ∧ o !! "save" = None ∧ o !! "to_json" = None
        ∧ b = merge_items (map_to_list (plain o)) a ∧ i = rid)
       ∨ (o !! "__dict__" = Some (JObj b)
          ∧ b !! "save" = None ∧ b !! "to_json" = None
          ∧ id_of b = Ok i)).
Proof.
  unfold put_outcome, put_rest, put_finish.
  rewrite !lookup_plain_method by in_list.
  destruct (o !! "__dict__") as [[| | | | |d]|] eqn:Hd; try done.
  - destruct (id_of d) as [i| |] eqn:Hi;
      repeat case_bool_decide; try done. intros ?; simplify_eq.
    exists d, i. do 4 (split; [done || by apply eq_None_not_Some|]).
    right. repeat split; done || by apply eq_None_not_Some.
  - repeat case_bool_decide; try done. intros ?; simplify_eq.
    eexists _, rid. do 4 (split; [done || by apply eq_None_not_Some|]).
    left. repeat split; done || by apply eq_None_not_Some.
Qed.

Lemma put_outcome_plain_ok rid o a st :
  (∀ k, k ∈ reserved_names → o !! k = None) →
  put_outcome rid o a st
  = (Ok (jsonify (to_json (merge_items (map_to_list (plain o)) a))),
     model_save "Review" rid (merge_items (map_to_list (plain o)) a)
       (written rid (merge_items (map_to_list (plain o)) a) st)).
Proof.
  intros Ho. unfold put_outcome, put_rest, put_finish.
  rewrite !lookup_plain_method by in_list.
  rewrite (Ho "__dict__"), (Ho "__class__"), (Ho "__weakref__"),
    (Ho "save"), (Ho "to_json") by in_list.
  by rewrite !bool_decide_eq_false_2 by (by intros []).
Qed.

Lemma put_outcome_dict_ok rid o a d i st :
  o !! "__dict__" = Some (JObj d) →
  o !! "__class__" = None → o !! "__weakref__" = None →
  d !! "save" = None → d !! "to_json" = None → id_of d = Ok i →
  put_outcome rid o a st
  = (Ok (jsonify (to_json d)), model_save "Review" i d (written rid d st)).
Proof.
  intros Hd Hc Hw Hs Hj Hi. unfold put_outcome, put_rest, put_finish.
  rewrite Hd, Hc, Hw, Hs, Hj, Hi.
  by rewrite !bool_decide_eq_false_2 by (by intros []).
Qed.

(** An update that answers with a response had a dictionary body and
    found its review. *)
Lemma review_put_ok_inv rid body st resp st' :
  review_put rid body st = (Ok resp, st') →
  ∃ o a,
    body = Parsed (JObj o)
    ∧ storage_get "Review" (JStr rid) st = Some a
    ∧ put_outcome rid o a st = (Ok resp, st').
Proof.
  intros Hrun.
  destruct (storage_get "Review" (JStr rid) st) as [a|] eqn:Hr.
  - destruct body as [|[| | | | |o]];
      try solve [ by rewrite review_put_not_json in Hrun
                | by erewrite review_put_non_object in Hrun ].
    erewrite review_put_object in Hrun by done. by exists o, a.
  - destruct body as [|[]];
      solve [ by rewrite review_put_not_json in Hrun
            | by rewrite review_put_no_review in Hrun ].
Qed.

(** After a save under [i], the live review and the entity under [i]
    are the saved attributes. *)
Lemma lookup_saved_written rid i b st :
  objects (model_save "Review" i b (written rid b st)) !! ("Review", rid)
  = Some b
  ∧ objects (model_save "Review" i b (written rid b st)) !! ("Review", i)
    = Some b.
Proof.
  simpl. split; [|apply lookup_insert_eq].
  destruct (decide (i = rid)) as [->|Hne]; [apply lookup_insert_eq|].
  rewrite lookup_insert_ne by congruence. apply lookup_insert_eq.
Qed.

(** Saving again what is already there changes no entity. *)
Lemma model_save_again rid i b st :
  objects st !! ("Review", rid) = Some b →
  objects st !! ("Review", i) = Some b →
  model_save "Review" i b (written rid b st) = storage_save st.
Proof.
  intros Hr Hi. unfold model_save, written, storage_save. simpl.
  by rewrite (insert_id _ _ _ Hr), (insert_id _ _ _ Hi).
Qed.

Lemma merge_items_idemp (o a : gmap string json) :
  merge_items (map_to_list o) (merge_items (map_to_list o) a)
  = merge_items (map_to_list o) a.
Proof.
  apply map_eq. intros k. rewrite !lookup_merge_map.
  case_bool_decide; [done|]. by destruct (o !! k).
Qed.

Lemma lookup_unprotected (o : gmap string json) k :
  unprotected o !! k
  = if bool_decide (k ∈ protected_keys) then None else o !! k.
Proof.
  unfold unprotected. case_bool_decide as Hp.
  - apply map_lookup_filter_None. right. intros v _ Hk. by apply Hk.
  - destruct (o !! k) as [v|] eqn:Hk.
    + by apply map_lookup_filter_Some.
    + apply map_lookup_filter_None. by left.
Qed.

Lemma merge_items_unprotected (o a : gmap string json) :
  merge_items (map_to_list (plain (unprotected o))) a
  = merge_items (map_to_list (plain o)) a.
Proof.
  apply map_eq. intros k.
  rewrite !lookup_merge_map, !lookup_plain, lookup_unprotected.
  by repeat case_bool_decide.
Qed.

Lemma put_outcome_unprotected rid (o a : gmap string json) st :
  put_outcome rid (unprotected o) a st = put_outcome rid o a st.
Proof.
  unfold put_outcome, put_rest, put_finish.
  rewrite !lookup_plain_method by in_list.
  rewrite merge_items_unprotected, !lookup_unprotected.
  change (bool_decide ("__dict__" ∈ protected_keys)) with false.
  change (bool_decide ("__class__" ∈ protected_keys)) with false.
  change (bool_decide ("__weakref__" ∈ protected_keys)) with false.
  change (bool_decide ("save" ∈ protected_keys)) with false.
  change (bool_decide ("to_json" ∈ protected_keys)) with false.
  done.
Qed.



Lemma reserved_none (o : gmap string json) :
  o !! "__dict__" = None → o !! "__class__" = None →
  o !! "__weakref__" = None → o !! "save" = None → o !! "to_json" = None →
  ∀ k, k ∈ reserved_names → o !! k = None.
Proof.
  intros ????? k Hk. unfold reserved_names, special_names in Hk.
  simpl in Hk. repeat (apply elem_of_cons in Hk as [->|Hk]; [done|]).
  by apply elem_of_nil in Hk.
Qed.

(** X1. [review_put] checks the body before it looks for the review:
    for an id that no review has, a body that does not decode (or is
    [null]) is answered 400 "Not a JSON", and every other body, a
    dictionary or not, is answered 404.  The store is left as it was. *)
Theorem review_put_without_review rid body st :
  storage_get "Review" (JStr rid) st = None →
  review_put rid body st
  = (if is_None (get_json_silent body)
     then Aborted 400 (Some "Not a JSON")
     else Aborted 404 None,
     st).
Proof.
  intros Hr. destruct (is_None (get_json_silent body)) eqn:Hb.
  - apply review_put_not_json. by destruct (get_json_silent body).
  - apply review_put_no_review; [|done]. by intros Hn; rewrite Hn in Hb.
Qed.

Lemma review_put_without_review_witness :
  storage_get "Review" (JStr "r9") Sample.store = None
  ∧ review_put "r9" (Parsed (JNum 7)) Sample.store
    = (Aborted 404 None, Sample.store)
  ∧ review_put "r9" Unparsable Sample.store
    = (Aborted 400 (Some "Not a JSON"), Sample.store).
Proof.
  split; [reflexivity|]. split.
  - apply (review_put_without_review "r9" (Parsed (JNum 7)) Sample.store).
    reflexivity.
  - apply (review_put_without_review "r9" Unparsable Sample.store).
    reflexivity.
Defined.

(** X2. Round trip of an update: when [review_put] answers with a
    response, the status is 200, and [review_by_id] of the same id right
    after it answers with the same response and leaves the store as the
    update left it. *)
Theorem review_put_then_review_by_id rid body st resp st' :
  review_put rid body st = (Ok resp, st') →
  status_code resp = 200
  ∧ review_by_id rid st' = (Ok resp, st').
Proof.
  intros (o & a & -> & Ha & Hrun)%review_put_ok_inv.
  apply put_outcome_ok_inv in Hrun as (b & i & -> & -> & _).
  destruct (lookup_saved_written rid i b st) as [Hr _].
  split; [done|]. unfold review_by_id. run. simpl in Hr. by rewrite Hr.
Qed.

Lemma review_put_then_review_by_id_witness :
  review_put "r1" Sample.update Sample.store
  = (Ok (jsonify (JObj Sample.updated_review)), Sample.updated_store)
  ∧ review_by_id "r1" Sample.updated_store
    = (Ok (jsonify (JObj Sample.updated_review)), Sample.updated_store).
Proof.
  split; [reflexivity|].
  apply (review_put_then_review_by_id "r1" Sample.update Sample.store).
  reflexivity.
Defined.

(** X3. An update is idempotent on what the store holds: sending the
    same request again gives the same response and the same live and
    persisted entities; only one more save is issued. *)
Theorem review_put_idempotent rid body st resp st' :
  review_put rid body st = (Ok resp, st') →
  ∃ st'',
    review_put rid body st' = (Ok resp, st'')
    ∧ objects st'' = objects st'
    ∧ persisted st'' = persisted st'
    ∧ issued st'' = (issued st' ++ [CallSave])%list.
Proof.
  intros (o & a & -> & Ha & Hrun)%review_put_ok_inv.
  apply put_outcome_ok_inv in Hrun as (b & i & -> & -> & Hc & Hw & Hcase).
  destruct (lookup_saved_written rid i b st) as [Hr Hi].
  exists (storage_save (model_save "Review" i b (written rid b st))).
  split; [|done].
  rewrite (review_put_object rid o b) by exact Hr.
  destruct Hcase as [(Hd & Hs & Hj & -> & ->)|(Hd & Hs & Hj & Hid)].
  - rewrite put_outcome_plain_ok by by apply reserved_none.
    rewrite merge_items_idemp. by rewrite model_save_again.
  - rewrite (put_outcome_dict_ok _ _ _ b i) by done.
    by rewrite model_save_again.
Qed.

Lemma review_put_idempotent_witness :
  review_put "r1" Sample.update Sample.store
  = (Ok (jsonify (JObj Sample.updated_review)), Sample.updated_store)
  ∧ ∃ st'',
      review_put "r1" Sample.update Sample.updated_store
      = (Ok (jsonify (JObj Sample.updated_review)), st'')
      ∧ objects st'' = objects Sample.updated_store
      ∧ persisted st'' = persisted Sample.updated_store
      ∧ issued st'' = (issued Sample.updated_store ++ [CallSave])%list.
Proof.
  split; [reflexivity|].
  apply (review_put_idempotent "r1" Sample.update Sample.store).
  reflexivity.
Defined.

(** X4. The protected keys of an update's body count for nothing: the
    request with those keys struck from its dictionary has the same
    outcome and leaves the same store, whether the review exists or
    not. *)
Theorem review_put_ignores_protected rid (o : gmap string json) st :
  review_put rid (Parsed (JObj o)) st
  = review_put rid (Parsed (JObj (unprotected o))) st.
Proof.
  destruct (storage_get "Review" (JStr rid) st) as [a|] eqn:Hr.
  - erewrite !review_put_object by done.
    by rewrite put_outcome_unprotected.
  - by rewrite !review_put_no_review.
Qed.





(** ** Creating *)

(** X7. For a dictionary body with a [user_id], sent for an existing
    Place, [review_create] looks for the User before it looks for the
    text: an unknown user is answered 404 whether or not there is a
    [text], and a known user without a [text] is answered 400
    "Missing text".  The store is left as it was either way. *)
Theorem review_create_user_before_text
    place_id uuid now (o : gmap string json) place user_id st :
  storage_get "Place" (JStr place_id) st = Some place →
  o !! "user_id" = Some user_id →
  (storage_get "User" user_id st = None →
   review_create place_id (Parsed (JObj o)) uuid now st
   = (Aborted 404 None, st))
  ∧ (∀ user, storage_get "User" user_id st = Some user →
       o !! "text" = None →
       review_create place_id (Parsed (JObj o)) uuid now st
       = (Aborted 400 (Some "Missing text"), st)).
Proof.
  intros Hp Hu. split.
  - intros Hs. erewrite review_create_object by done. by rewrite Hu, Hs.
  - intros user Hs Ht. erewrite review_create_object by done.
    by rewrite Hu, Hs, Ht.
Qed.

Lemma review_create_user_before_text_witness :
  storage_get "Place" (JStr "p1") Sample.store = Some Sample.place
  ∧ storage_get "User" (JStr "u9") Sample.store = None
  ∧ storage_get "User" (JStr "u1") Sample.store = Some Sample.user
  ∧ review_create "p1" (Parsed (JObj {[ "user_id" := JStr "u9" ]}))
      "r2" "t1" Sample.store
    = (Aborted 404 None, Sample.store)
  ∧ review_create "p1" (Parsed (JObj {[ "user_id" := JStr "u1" ]}))
      "r2" "t1" Sample.store
    = (Aborted 400 (Some "Missing text"), Sample.store).
Proof.
  do 3 (split; [reflexivity|]). split.
  - refine (proj1 (review_create_user_before_text "p1" "r2" "t1"
                     {[ "user_id" := JStr "u9" ]} Sample.place (JStr "u9")
                     Sample.store _ _) _);
      reflexivity.
  - refine (proj2 (review_create_user_before_text "p1" "r2" "t1"
                     {[ "user_id" := JStr "u1" ]} Sample.place (JStr "u1")
                     Sample.store _ _) Sample.user _ _);
      reflexivity.
Defined.

(** X8. A create adds one entity: after a successful [review_create]
    the store holds the new review under the drawn id and, under every
    other key, exactly what it held before; everything live is
    persisted, by one save. *)
Theorem review_create_frame place_id body uuid now st resp st' :
  review_create place_id body uuid now st = (Ok resp, st') →
  dom (objects st') = {[ ("Review", uuid) ]} ∪ dom (objects st)
  ∧ (∀ cls id, (cls, id) ≠ ("Review", uuid) →
       objects st' !! (cls, id) = objects st !! (cls, id))
  ∧ persisted st' = objects st'
  ∧ issued st' = (issued st ++ [CallSave])%list.
Proof.
  intros (o & user_id & text & -> & _ & _ & _ & _ & -> & ->)
    %review_create_ok_inv.
  simpl. repeat split.
  - apply dom_insert_L.
  - intros cls id Hne. by rewrite lookup_insert_ne.
Qed.

Lemma review_create_frame_witness :
  review_create "p1" Sample.great "r2" "t1" Sample.store
  = (Ok Sample.great_response, Sample.great_store)
  ∧ dom (objects Sample.great_store)
    = {[ ("Review", "r2") ]} ∪ dom (objects Sample.store)
  ∧ (∀ cls id, (cls, id) ≠ ("Review", "r2") →
       objects Sample.great_store !! (cls, id)
       = objects Sample.store !! (cls, id))
  ∧ persisted Sample.great_store = objects Sample.great_store
  ∧ issued Sample.great_store = (issued Sample.store ++ [CallSave])%list.
Proof.
  split; [reflexivity|].
  apply (review_create_frame "p1" Sample.great "r2" "t1" Sample.store
           Sample.great_response).
  reflexivity.
Defined.



(** ** Deleting *)

(** X10. A delete removes one entity, once: after a successful
    [review_delete_by_id] every entity other than the deleted review is
    what it was, and a second delete of the same id is answered 404 and
    changes nothing. *)
Theorem review_delete_by_id_twice rid st resp st' :
  review_delete_by_id rid st = (Ok resp, st') →
  (∀ cls id, (cls, id) ≠ ("Review", rid) →
     objects st' !! (cls, id) = objects st !! (cls, id))
  ∧ review_delete_by_id rid st' = (Aborted 404 None, st').
Proof.
  rewrite review_delete_by_id_run.
  destruct (storage_get "Review" (JStr rid) st) as [a|] eqn:Ha; [|done].
  intros [= <- <-]. split.
  - intros cls id Hne. simpl. by rewrite lookup_delete_ne.
  - rewrite review_delete_by_id_run. simpl. by rewrite lookup_delete_eq.
Qed.

Lemma review_delete_by_id_twice_witness :
  review_delete_by_id "r2" Sample.great_store
  = (Ok {| status_code := 200; data := JObj ∅ |},
     storage_save (storage_delete "Review" "r2" Sample.great_store))
  ∧ review_delete_by_id "r2"
      (storage_save (storage_delete "Review" "r2" Sample.great_store))
    = (Aborted 404 None,
       storage_save (storage_delete "Review" "r2" Sample.great_store)).
Proof.
  split; [reflexivity|].
  apply (review_delete_by_id_twice "r2" Sample.great_store
           {| status_code := 200; data := JObj ∅ |}).
  reflexivity.
Defined.

(** X11. Delete undoes create: when the drawn id was not in use, a
    successful [review_create] followed by [review_delete_by_id] of the
    new id answers 200 with the empty object and leaves the live
    entities, now all persisted, exactly as they were before the
    create. *)
Theorem review_create_then_review_delete_by_id
    place_id body uuid now st resp st' :
  storage_get "Review" (JStr uuid) st = None →
  review_create place_id body uuid now st = (Ok resp, st') →
  ∃ st'',
    review_delete_by_id uuid st'
    = (Ok {| status_code := 200; data := JObj ∅ |}, st'')
    ∧ objects st'' = objects st
    ∧ persisted st'' = objects st.
Proof.
  intros Hfresh (o & user_id & text & -> & _ & _ & _ & _ & -> & ->)
    %review_create_ok_inv.
  simpl in Hfresh. eexists. split.
  - rewrite review_delete_by_id_run. simpl. by rewrite lookup_insert_eq.
  - simpl. by rewrite delete_insert_eq, delete_id.
Qed.

Lemma review_create_then_review_delete_by_id_witness :
  storage_get "Review" (JStr "r2") Sample.store = None
  ∧ review_create "p1" Sample.great "r2" "t1" Sample.store
    = (Ok Sample.great_response, Sample.great_store)
  ∧ ∃ st'',
      review_delete_by_id "r2" Sample.great_store
      = (Ok {| status_code := 200; data := JObj ∅ |}, st'')
      ∧ objects st'' = objects Sample.store
      ∧ persisted st'' = objects Sample.store.
Proof.
  split; [reflexivity|]. split; [reflexivity|].
  apply (review_create_then_review_delete_by_id
           "p1" Sample.great "r2" "t1" Sample.store Sample.great_response);
    reflexivity.
Defined.

(** X12. After a successful delete, the listing of any place holds the
    JSON of exactly those of its reviews that the store held before
    under another id. *)
Theorem review_delete_by_id_then_reviews_by_place
    rid st resp st' place_id l :
  review_delete_by_id rid st = (Ok resp, st') →
  reviews_by_place place_id st'
  = (Ok {| status_code := 200; data := JArr l |}, st') →
  ∀ a, JObj a ∈ l
       ↔ ∃ rid', rid' ≠ rid
                 ∧ objects st !! ("Review", rid') = Some a
                 ∧ a !! "place_id" = Some (JStr place_id).
Proof.
  rewrite review_delete_by_id_run.
  destruct (storage_get "Review" (JStr rid) st) as [a0|] eqn:Ha; [|done].
  intros [= <- <-]. rewrite reviews_by_place_run.
  destruct (storage_get "Place" _ _); [|done]. intros [= <-] a.
  rewrite list_elem_of_fmap. setoid_rewrite elem_of_place_reviews.
  simpl. split.
  - intros (a' & [= ->] & rid' & Hl & Hpl). exists rid'.
    apply lookup_delete_Some in Hl as [Hne Hl]. split; [congruence|done].
  - intros (rid' & Hne & Hl & Hpl). exists a. split; [done|].
    exists rid'. split; [|done]. rewrite lookup_delete_ne; [done|congruence].
Qed.

Lemma review_delete_by_id_then_reviews_by_place_witness :
  review_delete_by_id "r1" Sample.great_store
  = (Ok {| status_code := 200; data := JObj ∅ |},
     storage_save (storage_delete "Review" "r1" Sample.great_store))
  ∧ reviews_by_place "p1"
      (storage_save (storage_delete "Review" "r1" Sample.great_store))
    = (Ok {| status_code := 200; data := JArr [JObj Sample.great_review] |},
       storage_save (storage_delete "Review" "r1" Sample.great_store))
  ∧ ∀ a, JObj a ∈ [JObj Sample.great_review]
         ↔ ∃ rid', rid' ≠ "r1"
                   ∧ objects Sample.great_store !! ("Review", rid') = Some a
                   ∧ a !! "place_id" = Some (JStr "p1").
Proof.
  split; [reflexivity|]. split; [reflexivity|].
  apply (review_delete_by_id_then_reviews_by_place "r1" Sample.great_store
           {| status_code := 200; data := JObj ∅ |}
           (storage_save (storage_delete "Review" "r1" Sample.great_store))
           "p1" [JObj Sample.great_review]);
    reflexivity.
Defined.

(** ** All routes *)

Lemma review_create_aborted_how
    place_id body uuid now st status description st' :
  review_create place_id body uuid now st
  = (Aborted status description, st') →
  (status = 400 ∧ description = Some "Not a JSON"
   ∧ get_json_silent body = JNull)
  ∨ (status = 404 ∧ description = None)
  ∨ (status = 400 ∧ description = Some "Missing text").
Proof.
  destruct (storage_get "Place" (JStr place_id) st) as [place|] eqn:Hp.
  - destruct body as [|[| | | | |o]];
      try solve
        [ rewrite review_create_not_json by done; intros [= <- <- <-]; auto
        | erewrite review_create_non_object by done; discriminate ].
    erewrite review_create_object by done.
    intros Hrun. repeat case_match; simplify_eq; auto.
  - destruct body as [|[]];
      solve
        [ rewrite review_create_not_json by done; intros [= <- <- <-]; auto
        | rewrite review_create_no_place by done; intros [= <- <- <-]; auto ].
Qed.

Lemma review_put_aborted_how rid body st status description st' :
  review_put rid body st = (Aborted status description, st') →
  (status = 400 ∧ description = Some "Not a JSON"
   ∧ get_json_silent body = JNull)
  ∨ (status = 404 ∧ description = None).
Proof.
  destruct (storage_get "Review" (JStr rid) st) as [a|] eqn:Hr.
  - destruct body as [|[| | | | |o]];
      try solve
        [ rewrite review_put_not_json by done; intros [= <- <- <-]; auto
        | erewrite review_put_non_object by done; discriminate ].
    erewrite review_put_object by done.
    intros Hrun. by apply put_outcome_not_aborted in Hrun.
  - destruct body as [|[]];
      solve
        [ rewrite review_put_not_json by done; intros [= <- <- <-]; auto
        | rewrite review_put_no_review by done; intros [= <- <- <-]; auto ].
Qed.





(** X13. What the aborts say.  The three routes without a body abort
    with a bare 404 only.  An update aborts with 400 "Not a JSON", and
    then its body did not decode to a value other than [None], or with a
    bare 404.  A create aborts in one of these two ways or with 400
    "Missing text". *)
Theorem aborted_request_description r st status description st' :
  dispatch r st = (Aborted status description, st') →
  match r with
  | POST_places_reviews _ body _ _ =>
      (status = 400 ∧ description = Some "Not a JSON"
       ∧ get_json_silent body = JNull)
      ∨ (status = 404 ∧ description = None)
      ∨ (status = 400 ∧ description = Some "Missing text")
  | PUT_reviews _ body =>
      (status = 400 ∧ description = Some "Not a JSON"
       ∧ get_json_silent body = JNull)
      ∨ (status = 404 ∧ description = None)
  | _ => status = 404 ∧ description = None
  end.
Proof.
  destruct r as [p|p b uuid now|rid|rid b|rid]; simpl; intros Hrun.
  - rewrite reviews_by_place_run in Hrun.
    destruct (storage_get "Place" (JStr p) st); by simplify_eq.
  - by eapply review_create_aborted_how.
  - unfold review_by_id in Hrun. run_in Hrun.
    destruct (objects st !! ("Review", rid)); by simplify_eq.
  - by eapply review_put_aborted_how.
  - rewrite review_delete_by_id_run in Hrun.
    destruct (storage_get "Review" (JStr rid) st); by simplify_eq.
Qed.

Lemma aborted_request_description_witness :
  dispatch
    (POST_places_reviews "p1" (Parsed (JObj {[ "user_id" := JStr "u1" ]}))
       "r2" "t1")
    Sample.store
  = (Aborted 400 (Some "Missing text"), Sample.store)
  ∧ ((400 = 400 ∧ Some "Missing text" = Some "Not a JSON"
      ∧ JObj {[ "user_id" := JStr "u1" ]} = JNull)
     ∨ (400 = 404 ∧ Some "Missing text" = None)
     ∨ (400 = 400 ∧ Some "Missing text" = Some "Missing text")).
Proof.
  split; [reflexivity|].
  apply (aborted_request_description
           (POST_places_reviews "p1"
              (Parsed (JObj {[ "user_id" := JStr "u1" ]})) "r2" "t1")
           Sample.store 400 (Some "Missing text") Sample.store).
  reflexivity.
Defined.



(** X15. Responses.  A create answers 201 and every other route 200.
    The two GET routes hand the store back as it was.  After a response
    of a create, an update or a delete, the live entities are the
    persisted ones, and the request has issued exactly one save, after
    one delete in the case of a delete. *)
Theorem answered_request_is_saved r st resp st' :
  dispatch r st = (Ok resp, st') →
  match r with
  | GET_places_reviews _ | GET_reviews _ =>
      status_code resp = 200 ∧ st' = st
  | POST_places_reviews _ _ _ _ =>
      status_code resp = 201
      ∧ persisted st' = objects st'
      ∧ issued st' = (issued st ++ [CallSave])%list
  | PUT_reviews _ _ =>
      status_code resp = 200
      ∧ persisted st' = objects st'
      ∧ issued st' = (issued st ++ [CallSave])%list
  | DELETE_reviews rid =>
      status_code resp = 200
      ∧ persisted st' = objects st'
      ∧ issued st' = (issued st ++ [CallDelete "Review" rid; CallSave])%list
  end.
Proof.
  destruct r as [p|p b uuid now|rid|rid b|rid]; simpl; intros Hrun.
  - rewrite reviews_by_place_run in Hrun.
    destruct (storage_get "Place" (JStr p) st); by simplify_eq.
  - by apply review_create_ok_inv in Hrun
      as (o & user_id & text & -> & _ & _ & _ & _ & -> & ->).
  - unfold review_by_id in Hrun. run_in Hrun.
    destruct (objects st !! ("Review", rid)); by simplify_eq.
  - apply review_put_ok_inv in Hrun as (o & a & -> & Ha & Hrun).
    by apply put_outcome_ok_inv in Hrun as (b & i & -> & -> & _).
  - rewrite review_delete_by_id_run in Hrun.
    destruct (storage_get "Review" (JStr rid) st); simplify_eq.
    simpl. by rewrite <- app_assoc.
Qed.

Lemma answered_request_is_saved_witness :
  dispatch (DELETE_reviews "r2") Sample.great_store
  = (Ok {| status_code := 200; data := JObj ∅ |},
     storage_save (storage_delete "Review" "r2" Sample.great_store))
  ∧ persisted
      (storage_save (storage_delete "Review" "r2" Sample.great_store))
    = objects
        (storage_save (storage_delete "Review" "r2" Sample.great_store)).
Proof.
  split; [reflexivity|].
  apply (answered_request_is_saved (DELETE_reviews "r2") Sample.great_store
           {| status_code := 200; data := JObj ∅ |}
           (storage_save (storage_delete "Review" "r2" Sample.great_store))).
  reflexivity.
Defined.

(** ** Updating and listing *)



(** ** Updating with plain attributes and with method names *)





(** A write that goes through before [setattr] fails stays: the body
    [{"text": "x", "__class__": "Review"}] raises [TypeError] and leaves
    the new text on the live review, unsaved. *)
Example review_put_text_then_class :
  review_put "r1"
    (Parsed (JObj {[ "text" := JStr "x"; "__class__" := JStr "Review" ]}))
    Sample.store
  = (Raised TypeError,
     {| objects :=
          <[("Review", "r1") := <["text" := JStr "x"]> Sample.review]>
            Sample.entities;
        persisted := Sample.entities;
        issued := [] |}).
Proof. reflexivity. Qed.
